(** * sandman.model: the resource mixin and the endpoint registry

    A shallow embedding of [sandman/model.py]: the [Model] mixin (endpoint
    derivation, primary-key lookup, resource URIs, links, dictionary
    marshalling, partial and full update) and [register].

    Python objects are modelled as follows.
    - A value held by an attribute or a dictionary is a [value]: [None], a
      [bool], an [int], a [str], a [decimal.Decimal], a [list] or a [dict]
      with string keys.  Binary floating point is left out.
    - A dictionary with string keys is a [gmap string value]; a [dict]
      nested inside a value keeps its insertion order as an association
      list.
    - An instance is its class together with its attribute store.  A
      method call [self.m(...)] looks [m] up on the instance: an attribute
      of the instance named [m] hides the method of the class, and what it
      holds cannot be called.
    - A call that can raise returns a [result]. *)

From Stdlib Require Import Ascii.
From stdpp Require Import gmap strings pretty.

#[local] Set Warnings "-register-all,-clear-no-such-hyp".

(** ** Exceptions *)

Inductive exception :=
  | AttributeError
  | IndexError
  | TypeError
  | CollaboratorError (name : string).

Inductive result (A : Type) :=
  | Ok (a : A)
  | Raise (e : exception).
Arguments Ok {A} a.
Arguments Raise {A} e.

#[global] Instance result_ret : MRet result := @Ok.
#[global] Instance result_bind : MBind result := λ A B f m,
  match m with Ok a => f a | Raise e => Raise e end.

(** [o ?? e] is the attribute access that raises [e] on [None]. *)
Definition or_raise {A} (o : option A) (e : exception) : result A :=
  match o with Some a => Ok a | None => Raise e end.
Infix "??" := or_raise (at level 50, left associativity).

(** ** Strings *)

(** [str.lower] on ASCII text: [A]..[Z] go to [a]..[z], every other
    character stays. *)
Definition ascii_lower (c : ascii) : ascii :=
  let n := Ascii.N_of_ascii c in
  if ((65 <=? n) && (n <=? 90))%N then Ascii.ascii_of_N (n + 32) else c.

Fixpoint lower (s : string) : string :=
  match s with
  | EmptyString => EmptyString
  | String c s' => String (ascii_lower c) (lower s')
  end.

(** ** decimal.Decimal *)

Module Decimal.

(** A [Decimal] is a sign, a coefficient and an exponent, or one of the
    special values; the coefficient is kept as a number, its digit string
    [_int] is [pretty] of it (no leading zeros, ["0"] for zero). *)
Inductive t :=
  | Finite (sign : bool) (coefficient : N) (exp : Z)
  | Infinity (sign : bool)
  | NaN (sign : bool) (signaling : bool) (payload : N).

Definition sign_str (sign : bool) : string := if sign then "-" else "".

Definition zeros (n : nat) : string := String.concat "" (replicate n "0").

(** ["%+d" % n] *)
Definition signed (n : Z) : string :=
  if (0 <=? n)%Z then "+" +:+ pretty n else pretty n.

(** [Decimal.__str__] in the default context (capitals = 1). *)
Definition str (d : t) : string :=
  match d with
  | Infinity sign => sign_str sign +:+ "Infinity"
  | NaN sign signaling payload =>
      sign_str sign +:+ (if signaling then "sNaN" else "NaN")
        +:+ (if decide (payload = 0%N) then "" else pretty payload)
  | Finite sign coefficient exp =>
      let _int := pretty coefficient in
      let len := Z.of_nat (String.length _int) in
      let leftdigits := (exp + len)%Z in
      let dotplace :=
        if ((exp <=? 0) && (-6 <? leftdigits))%Z then leftdigits else 1%Z in
      let intpart :=
        if (dotplace <=? 0)%Z then "0"
        else if (len <=? dotplace)%Z
             then _int +:+ zeros (Z.to_nat (dotplace - len))
             else String.substring 0 (Z.to_nat dotplace) _int in
      let fracpart :=
        if (dotplace <=? 0)%Z then "." +:+ zeros (Z.to_nat (- dotplace)) +:+ _int
        else if (len <=? dotplace)%Z then ""
             else "." +:+ String.substring (Z.to_nat dotplace)
                            (String.length _int - Z.to_nat dotplace) _int in
      let exp_str :=
        if (leftdigits =? dotplace)%Z then ""
        else "E" +:+ signed (leftdigits - dotplace) in
      sign_str sign +:+ intpart +:+ fracpart +:+ exp_str
  end.

(** [Decimal.__bool__]: special values and non-zero numbers are true. *)
Definition bool (d : t) : bool :=
  match d with
  | Finite _ coefficient _ => negb (coefficient =? 0)%N
  | _ => true
  end.

End Decimal.

(** ** Values *)

Inductive value :=
  | VNone
  | VBool (b : bool)
  | VInt (z : Z)
  | VStr (s : string)
  | VDecimal (d : Decimal.t)
  | VList (l : list value)
  | VDict (m : list (string * value)).

(** Truth value testing, as [if value:] does it. *)
Definition truthy (v : value) : bool :=
  match v with
  | VNone => false
  | VBool b => b
  | VInt z => negb (z =? 0)%Z
  | VStr s => negb (String.eqb s "")
  | VDecimal d => Decimal.bool d
  | VList l => negb (bool_decide (l = []))
  | VDict m => negb (bool_decide (m = []))
  end.

(** [isinstance(v, Decimal)] *)
Definition is_decimal (v : value) : bool :=
  match v with VDecimal _ => true | _ => false end.

Definition hex_digit (n : N) : ascii :=
  if (n <? 10)%N then Ascii.ascii_of_N (48 + n) else Ascii.ascii_of_N (87 + n).

(** [repr] of a string of ASCII text: single quotes unless the text has a
    single quote and no double quote; backslash, the quote and control
    characters are escaped. *)
Definition has_char (c : ascii) (s : string) : bool :=
  bool_decide (c ∈ String.list_ascii_of_string s).

Definition backslash : ascii := Ascii.ascii_of_N 92.
Definition single_quote : ascii := Ascii.ascii_of_N 39.
Definition double_quote : ascii := Ascii.ascii_of_N 34.

Definition repr_char (quote c : ascii) : string :=
  let n := Ascii.N_of_ascii c in
  if bool_decide (c = quote) || bool_decide (c = backslash)
  then String backslash (String c "")
  else if (n =? 9)%N then String backslash "t"
  else if (n =? 10)%N then String backslash "n"
  else if (n =? 13)%N then String backslash "r"
  else if ((n <? 32) || (n =? 127))%N
       then String backslash
              (String "x" (String (hex_digit (n / 16))
                             (String (hex_digit (n mod 16)) "")))
  else String c "".

Definition repr_str (s : string) : string :=
  let quote : ascii :=
    if has_char single_quote s && negb (has_char double_quote s)
    then double_quote else single_quote in
  String quote
    (String.concat "" (repr_char quote <$> String.list_ascii_of_string s)
       +:+ String quote "").

Fixpoint py_repr (v : value) : string :=
  match v with
  | VNone => "None"
  | VBool b => if b then "True" else "False"
  | VInt z => pretty z
  | VStr s => repr_str s
  | VDecimal d => "Decimal('" +:+ Decimal.str d +:+ "')"
  | VList l => "[" +:+ String.concat ", " (map py_repr l) +:+ "]"
  | VDict m =>
      "{" +:+ String.concat ", "
                (map (λ kv, repr_str (fst kv) +:+ ": " +:+ py_repr (snd kv)) m)
          +:+ "}"
  end.

(** [str(v)], which is also what a bare [{}] in [str.format] inserts. *)
Definition py_str (v : value) : string :=
  match v with
  | VStr s => s
  | VDecimal d => Decimal.str d
  | _ => py_repr v
  end.

(** [dictionary.get(key, None)] *)
Definition dict_get (dictionary : gmap string value) (key : string) : value :=
  default VNone (dictionary !! key).

(** ** Tables, classes and instances *)

(** What reflection leaves in [__table__]: the keys of [columns], in
    order, and the names of the columns of [primary_key], in order. *)
Record table := {
  columns : list string;
  primary_key_columns : list string
}.

Record model_class := {
  __name__ : string;
  __endpoint__ : option string;
  __tablename__ : option string;
  __methods__ : list string;
  __table__ : option table
}.

Record instance := {
  class_of : model_class;
  __dict__ : gmap string value
}.

(** [getattr(self, name, None)] *)
Definition getattr (self : instance) (name : string) : value :=
  default VNone (__dict__ self !! name).

(** [setattr(self, name, v)] *)
Definition setattr (self : instance) (name : string) (v : value) : instance :=
  {| class_of := class_of self; __dict__ := <[name := v]> (__dict__ self) |}.

(** The names [model.py] gives the class: its configuration attributes
    and its methods.  Attribute lookup on an instance that has no attribute
    of its own under such a name finds the class's, which is not a
    [value]; [getattr] above is the lookup of any other name. *)
Definition mixin_names : list string :=
  ["__endpoint__"; "__tablename__"; "__methods__"; "__table__"; "endpoint";
   "resource_uri"; "links"; "primary_key"; "as_dict"; "from_dict"; "replace"].

(** [self.name(...)] for a method [name] of the class, [method] being the
    outcome of the method's body: the attribute store of the instance is
    searched first, and a [value] found there is not callable. *)
Definition call_method {A} (self : instance) (name : string)
    (method : result A) : result A :=
  match __dict__ self !! name with
  | Some _ => Raise TypeError
  | None => method
  end.

(** No attribute of the instance hides any of the methods [names]. *)
Definition finds_methods (self : instance) (names : list string) : bool :=
  forallb (λ name, match __dict__ self !! name with
                   | Some _ => false
                   | None => true
                   end) names.

(** ** The mixin *)

(** [Model.endpoint] *)
Definition endpoint (cls : model_class) : result string :=
  match __endpoint__ cls with
  | Some e => Ok e
  | None =>
      tablename ← __tablename__ cls ?? AttributeError;
      Ok (lower tablename +:+ "s")
  end.

(** [Model.primary_key] *)
Definition primary_key (cls : model_class) : result string :=
  tbl ← __table__ cls ?? AttributeError;
  head (primary_key_columns tbl) ?? IndexError.

(** [Model.resource_uri] *)
Definition resource_uri (self : instance) : result string :=
  pk ← call_method self "primary_key" (primary_key (class_of self));
  let primary_key_value := getattr self pk in
  e ← call_method self "endpoint" (endpoint (class_of self));
  Ok ("/" +:+ e +:+ "/" +:+ py_str primary_key_value).

(** [Model.links] *)
Definition links (self : instance) : result value :=
  uri ← call_method self "resource_uri" (resource_uri self);
  Ok (VList [VDict [("rel", VStr "self"); ("uri", VStr uri)]]).

(** One turn of the loop of [as_dict]. *)
Definition as_dict_step (self : instance) (result_dict : gmap string value)
    (column : string) : gmap string value :=
  let result_dict := <[column := getattr self column]> result_dict in
  if is_decimal (dict_get result_dict column)
  then <[column := VStr (py_str (dict_get result_dict column))]> result_dict
  else result_dict.

(** [Model.as_dict] *)
Definition as_dict (self : instance) : result (gmap string value) :=
  tbl ← __table__ (class_of self) ?? AttributeError;
  let result_dict := foldl (as_dict_step self) ∅ (columns tbl) in
  ls ← call_method self "links" (links self);
  Ok (<["links" := ls]> result_dict).

(** One turn of the loop of [from_dict]. *)
Definition from_dict_step (dictionary : gmap string value) (self : instance)
    (column : string) : instance :=
  let value := dict_get dictionary column in
  if truthy value then setattr self column value else self.

(** [Model.from_dict] *)
Definition from_dict (self : instance) (dictionary : gmap string value)
    : result instance :=
  tbl ← __table__ (class_of self) ?? AttributeError;
  Ok (foldl (from_dict_step dictionary) self (columns tbl)).

(** [Model.replace].  When [self.from_dict] is hidden the call raises
    after the loop has cleared the columns. *)
Definition replace (self : instance) (dictionary : gmap string value)
    : result instance :=
  tbl ← __table__ (class_of self) ?? AttributeError;
  let self := foldl (λ self column, setattr self column VNone) self (columns tbl) in
  call_method self "from_dict" (from_dict self dictionary).

(** What the loop of [as_dict] stores for a value: a [Decimal] as its
    string, anything else as it is. *)
Definition marshalled (v : value) : value :=
  if is_decimal v then VStr (py_str v) else v.

(** ** The registry *)

(** The part of [current_app] that [register] touches: the attribute
    [endpoint_classes], absent (or [None]) until the first registration. *)
Record application := {
  endpoint_classes : option (gmap string model_class)
}.

(** [register] takes one class, or a list or tuple of classes. *)
Inductive registrant :=
  | OneClass (cls : model_class)
  | Sequence (entries : list model_class).

(** The [for entry in cls] loop: an entry whose [endpoint()] raises stops
    the loop and leaves the entries recorded before it. *)
Fixpoint register_entries (registry : gmap string model_class)
    (entries : list model_class) : gmap string model_class * option exception :=
  match entries with
  | [] => (registry, None)
  | entry :: entries =>
      match endpoint entry with
      | Ok e => register_entries (<[e := entry]> registry) entries
      | Raise x => (registry, Some x)
      end
  end.

Section register.

(** The reflection state behind [Model.prepare(db.engine)] (the engine
    and the tables of the declared classes) and [prepare] itself belong
    to SQLAlchemy; [prepare] returns the new state and the exception it
    raised, if any. *)
Context {metadata : Type}.
Variable prepare : metadata → metadata * option exception.

Definition register (w : application * metadata) (cls : registrant)
    : (application * metadata) * option exception :=
  let '(current_app, md) := w in
  let registry := default ∅ (endpoint_classes current_app) in
  let '(registry, raised) :=
    match cls with
    | Sequence entries => register_entries registry entries
    | OneClass cls =>
        match endpoint cls with
        | Ok e => (<[e := cls]> registry, None)
        | Raise x => (registry, Some x)
        end
    end in
  let current_app := {| endpoint_classes := Some registry |} in
  match raised with
  | Some x => ((current_app, md), Some x)
  | None => let '(md, raised) := prepare md in ((current_app, md), raised)
  end.

End register.

(** ** Sample data *)

Definition item_table : table :=
  {| columns := ["id"; "name"; "quantity"; "price"];
     primary_key_columns := ["id"] |}.

Definition Item : model_class :=
  {| __name__ := "Item"; __endpoint__ := None; __tablename__ := Some "item";
     __methods__ := ["GET"; "POST"; "PATCH"; "DELETE"; "PUT"];
     __table__ := Some item_table |}.

Definition five_widgets : instance :=
  {| class_of := Item;
     __dict__ := {[ "id" := VInt 7; "name" := VStr "widget"; "quantity" := VInt 5;
                    "price" := VDecimal (Decimal.Finite false 1250 (-2));
                    "note" := VStr "not a column" ]} |}.

Definition Person : model_class :=
  {| __name__ := "Person"; __endpoint__ := None; __tablename__ := Some "Person";
     __methods__ := ["GET"; "POST"; "PATCH"; "DELETE"; "PUT"];
     __table__ := Some {| columns := ["id"; "name"]; primary_key_columns := ["id"] |} |}.

Definition People : model_class :=
  {| __name__ := "People"; __endpoint__ := Some "People"; __tablename__ := Some "person";
     __methods__ := ["GET"];
     __table__ := Some {| columns := ["id"; "name"]; primary_key_columns := ["id"] |} |}.

Definition person_3 : instance :=
  {| class_of := Person; __dict__ := {[ "id" := VInt 3; "name" := VStr "Ann" ]} |}.




(** A class whose explicit endpoint collides with the derived endpoint of
    [Person]. *)
Definition Personnel : model_class :=
  {| __name__ := "Personnel"; __endpoint__ := Some "persons";
     __tablename__ := Some "staff";
     __methods__ := ["GET"; "POST"; "PATCH"; "DELETE"; "PUT"];
     __table__ := None |}.

(** A reflection that succeeds and logs that it ran, and a world in which
    nothing has been registered yet. *)
Definition sample_prepare (md : list string) : list string * option exception :=
  ("reflected" :: md, None).

Definition empty_world : application * list string :=
  ({| endpoint_classes := None |}, []).

(** ** Notions used in the statements *)


(** The classes a call of [register] is given. *)
Definition classes_of (cls : registrant) : list model_class :=
  match cls with
  | OneClass cls => [cls]
  | Sequence entries => entries
  end.

(** ** More sample data *)

Definition Staff : model_class :=
  {| __name__ := "Staff"; __endpoint__ := None; __tablename__ := Some "PERSON";
     __methods__ := ["GET"];
     __table__ := Some {| columns := ["id"; "name"]; primary_key_columns := ["id"] |} |}.

Definition Unreflected : model_class :=
  {| __name__ := "Unreflected"; __endpoint__ := Some "drafts"; __tablename__ := Some "draft";
     __methods__ := ["GET"]; __table__ := None |}.

Definition draft_row : instance :=
  {| class_of := Unreflected; __dict__ := {[ "id" := VInt 1 ]} |}.



Definition order_line_table : table :=
  {| columns := ["order_id"; "line"; "sku"]; primary_key_columns := ["order_id"; "line"] |}.

Definition OrderLine : model_class :=
  {| __name__ := "OrderLine"; __endpoint__ := None; __tablename__ := Some "order_line";
     __methods__ := ["GET"]; __table__ := Some order_line_table |}.

Definition order_1_line_1 : instance :=
  {| class_of := OrderLine;
     __dict__ := {[ "order_id" := VInt 1; "line" := VInt 1; "sku" := VStr "bolt" ]} |}.

Definition order_1_line_2 : instance :=
  {| class_of := OrderLine;
     __dict__ := {[ "order_id" := VInt 1; "line" := VInt 2; "sku" := VStr "nut" ]} |}.


Definition half_filled : instance :=
  {| class_of := Item;
     __dict__ := {[ "id" := VInt 8; "quantity" := VInt 0;
                    "price" := VDecimal (Decimal.Finite false 0 (-2)) ]} |}.




(** A class without table name and without endpoint. *)
Definition Nameless : model_class :=
  {| __name__ := "Nameless"; __endpoint__ := None; __tablename__ := None;
     __methods__ := ["GET"];
     __table__ := Some {| columns := ["id"]; primary_key_columns := ["id"] |} |}.

(** * Properties *)

(** ** Method lookup *)

Lemma call_method_found {A} self name (method : result A) :
  __dict__ self !! name = None → call_method self name method = method.
Proof. intros H. unfold call_method. by rewrite H. Qed.


Lemma finds_methods_cons self name names :
  finds_methods self (name :: names) = true ↔
  __dict__ self !! name = None ∧ finds_methods self names = true.
Proof.
  unfold finds_methods. cbn [forallb]. rewrite andb_true_iff.
  destruct (__dict__ self !! name); naive_solver.
Qed.

(** Closes a goal [name ∉ l] for a list [l] of string literals. *)
Ltac not_among :=
  let H := fresh in
  cbn; intros H;
  repeat (apply elem_of_cons in H as [H|H]; [discriminate H|]);
  by apply elem_of_nil in H.

(** ** The update loops *)

Lemma from_dict_loop_class dictionary cols self :
  class_of (foldl (from_dict_step dictionary) self cols) = class_of self.
Proof.
  revert self. induction cols as [|c cols IH]; intros self; simpl; [done|].
  rewrite IH. unfold from_dict_step. by destruct (truthy _).
Qed.

Lemma from_dict_loop_lookup dictionary cols self name :
  __dict__ (foldl (from_dict_step dictionary) self cols) !! name =
    if decide (name ∈ cols ∧ truthy (dict_get dictionary name) = true)
    then Some (dict_get dictionary name)
    else __dict__ self !! name.
Proof.
  revert self. induction cols as [|c cols IH]; intros self; cbn [foldl].
  - destruct (decide _) as [[H _]|]; [|done]. by apply elem_of_nil in H.
  - rewrite IH. unfold from_dict_step.
    destruct (decide (name = c)) as [->|Hne].
    + destruct (truthy (dict_get dictionary c)) eqn:Ht; cbn [setattr __dict__].
      * rewrite lookup_insert_eq.
        destruct (decide _), (decide _); set_solver.
      * destruct (decide _), (decide _); naive_solver.
    + assert (name ∈ c :: cols ↔ name ∈ cols) as Hin by set_solver.
      destruct (truthy (dict_get dictionary c)); cbn [setattr __dict__];
        rewrite ?lookup_insert_ne by done;
        destruct (decide _), (decide _); naive_solver.
Qed.

Lemma clear_loop_class cols self :
  class_of (foldl (λ self column, setattr self column VNone) self cols)
  = class_of self.
Proof.
  revert self. induction cols as [|c cols IH]; intros self; simpl; [done|].
  by rewrite IH.
Qed.

Lemma clear_loop_lookup cols self name :
  __dict__ (foldl (λ self column, setattr self column VNone) self cols) !! name =
    if decide (name ∈ cols) then Some VNone else __dict__ self !! name.
Proof.
  revert self. induction cols as [|c cols IH]; intros self; cbn [foldl].
  - destruct (decide _) as [H|]; [|done]. by apply elem_of_nil in H.
  - rewrite IH. cbn [setattr __dict__]. destruct (decide (name = c)) as [->|Hne].
    + rewrite lookup_insert_eq. destruct (decide _), (decide _); set_solver.
    + rewrite lookup_insert_ne by done.
      destruct (decide _), (decide _); set_solver.
Qed.

Lemma from_dict_ok self dictionary tbl :
  __table__ (class_of self) = Some tbl →
  from_dict self dictionary
  = Ok (foldl (from_dict_step dictionary) self (columns tbl)).
Proof. intros H. unfold from_dict. by rewrite H. Qed.

Lemma replace_ok self dictionary tbl :
  __table__ (class_of self) = Some tbl →
  "from_dict" ∉ columns tbl →
  __dict__ self !! "from_dict" = None →
  replace self dictionary
  = Ok (foldl (from_dict_step dictionary)
          (foldl (λ self column, setattr self column VNone) self (columns tbl))
          (columns tbl)).
Proof.
  intros H Hcol Hattr. unfold replace. rewrite H. simpl.
  rewrite call_method_found.
  - apply from_dict_ok. by rewrite clear_loop_class.
  - rewrite clear_loop_lookup. by destruct (decide _).
Qed.

Lemma replace_loop_lookup dictionary cols self name :
  __dict__ (foldl (from_dict_step dictionary)
              (foldl (λ self column, setattr self column VNone) self cols)
              cols) !! name =
    if decide (name ∈ cols)
    then Some (if truthy (dict_get dictionary name)
               then dict_get dictionary name else VNone)
    else __dict__ self !! name.
Proof.
  rewrite from_dict_loop_lookup, clear_loop_lookup.
  destruct (truthy (dict_get dictionary name));
    destruct (decide _), (decide _); naive_solver.
Qed.

Lemma replace_lookup self dictionary tbl self' name :
  __table__ (class_of self) = Some tbl →
  "from_dict" ∉ columns tbl →
  __dict__ self !! "from_dict" = None →
  replace self dictionary = Ok self' →
  __dict__ self' !! name =
    if decide (name ∈ columns tbl)
    then Some (if truthy (dict_get dictionary name)
               then dict_get dictionary name else VNone)
    else __dict__ self !! name.
Proof.
  intros Ht Hcol Hattr. rewrite (replace_ok _ _ _ Ht Hcol Hattr). intros [= <-].
  apply replace_loop_lookup.
Qed.

Lemma instance_eq (a b : instance) :
  class_of a = class_of b → __dict__ a = __dict__ b → a = b.
Proof. destruct a, b; simpl; by intros -> ->. Qed.



(** ** Partial update *)



(** ** Full replace *)







(** ** Endpoints *)

(** C4. [endpoint()] returns the explicit override verbatim when one is
    set, whatever the table name; otherwise the table name lowercased with
    ["s"] appended. *)
Theorem endpoint_override_or_suffix (cls : model_class) :
  (∀ override, __endpoint__ cls = Some override → endpoint cls = Ok override) ∧
  (∀ tablename, __endpoint__ cls = None → __tablename__ cls = Some tablename →
     endpoint cls = Ok (lower tablename +:+ "s")).
Proof.
  unfold endpoint. split.
  - by intros override ->.
  - by intros tablename -> ->.
Qed.

Lemma endpoint_person_people :
  endpoint Person = Ok "persons" ∧ endpoint People = Ok "People".
Proof.
  split.
  - exact (proj2 (endpoint_override_or_suffix Person) "Person" eq_refl eq_refl).
  - exact (proj1 (endpoint_override_or_suffix People) "People" eq_refl).
Defined.

(** ** Resource URIs and links *)

Lemma resource_uri_ok self tbl pk e :
  __table__ (class_of self) = Some tbl →
  head (primary_key_columns tbl) = Some pk →
  endpoint (class_of self) = Ok e →
  finds_methods self ["primary_key"; "endpoint"] = true →
  resource_uri self = Ok ("/" +:+ e +:+ "/" +:+ py_str (getattr self pk)).
Proof.
  intros Ht Hpk He (Hk & (Hep & _)%finds_methods_cons)%finds_methods_cons.
  unfold resource_uri, primary_key.
  rewrite (call_method_found self "primary_key") by done.
  rewrite Ht. simpl. rewrite Hpk. simpl.
  rewrite (call_method_found self "endpoint") by done. by rewrite He.
Qed.

Lemma links_ok self tbl pk e :
  __table__ (class_of self) = Some tbl →
  head (primary_key_columns tbl) = Some pk →
  endpoint (class_of self) = Ok e →
  finds_methods self ["resource_uri"; "primary_key"; "endpoint"] = true →
  links self =
    Ok (VList [VDict [("rel", VStr "self");
                      ("uri", VStr ("/" +:+ e +:+ "/" +:+ py_str (getattr self pk)))]]).
Proof.
  intros Ht Hpk He (Hu & Hfinds)%finds_methods_cons. unfold links.
  rewrite (call_method_found self "resource_uri") by done.
  by rewrite (resource_uri_ok _ _ _ _ Ht Hpk He Hfinds).
Qed.




(** ** Marshalling *)

Lemma as_dict_step_insert self result_dict column :
  as_dict_step self result_dict column
  = <[column := marshalled (getattr self column)]> result_dict.
Proof.
  unfold as_dict_step, marshalled, dict_get. rewrite lookup_insert_eq. simpl.
  destruct (is_decimal _); [|done]. by rewrite insert_insert_eq.
Qed.

Lemma as_dict_loop_lookup self cols result_dict name :
  foldl (as_dict_step self) result_dict cols !! name =
    if decide (name ∈ cols) then Some (marshalled (getattr self name))
    else result_dict !! name.
Proof.
  revert result_dict. induction cols as [|c cols IH]; intros result_dict; cbn [foldl].
  - destruct (decide _) as [H|]; [|done]. by apply elem_of_nil in H.
  - rewrite IH, as_dict_step_insert. destruct (decide (name = c)) as [->|Hne].
    + rewrite lookup_insert_eq. destruct (decide _), (decide _); set_solver.
    + rewrite lookup_insert_ne by done.
      destruct (decide _), (decide _); set_solver.
Qed.

Lemma as_dict_ok self tbl pk e :
  __table__ (class_of self) = Some tbl →
  head (primary_key_columns tbl) = Some pk →
  endpoint (class_of self) = Ok e →
  finds_methods self ["links"; "resource_uri"; "primary_key"; "endpoint"] = true →
  as_dict self =
    Ok (<["links" :=
            VList [VDict [("rel", VStr "self");
                          ("uri", VStr ("/" +:+ e +:+ "/" +:+ py_str (getattr self pk)))]]]>
          (foldl (as_dict_step self) ∅ (columns tbl))).
Proof.
  intros Ht Hpk He (Hl & Hfinds)%finds_methods_cons. unfold as_dict.
  rewrite Ht. simpl. rewrite (call_method_found self "links") by done.
  by rewrite (links_ok _ _ _ _ Ht Hpk He Hfinds).
Qed.








Lemma as_dict_lookup_column self tbl pk e result_dict column :
  __table__ (class_of self) = Some tbl →
  head (primary_key_columns tbl) = Some pk →
  endpoint (class_of self) = Ok e →
  finds_methods self ["links"; "resource_uri"; "primary_key"; "endpoint"] = true →
  as_dict self = Ok result_dict →
  column ∈ columns tbl → column ≠ "links" →
  result_dict !! column = Some (marshalled (getattr self column)).
Proof.
  intros Ht Hpk He Hfinds. rewrite (as_dict_ok _ _ _ _ Ht Hpk He Hfinds).
  intros [= <-] Hin Hne.
  rewrite lookup_insert_ne, as_dict_loop_lookup by done.
  by destruct (decide _).
Qed.




(** ** Round trip *)






(** ** Registration *)

Lemma register_entries_app registry entries more :
  register_entries registry (entries ++ more) =
    match register_entries registry entries with
    | (registry', None) => register_entries registry' more
    | (registry', Some x) => (registry', Some x)
    end.
Proof.
  revert registry. induction entries as [|entry entries IH]; intros registry; simpl.
  - done.
  - destruct (endpoint entry); [apply IH|done].
Qed.

Lemma register_one {metadata} (prepare : metadata → metadata * option exception)
    (w : application * metadata) (cls : model_class) (e : string) :
  endpoint cls = Ok e →
  register prepare w (OneClass cls) =
    (({| endpoint_classes := Some (<[e := cls]> (default ∅ (endpoint_classes w.1))) |},
      (prepare w.2).1), (prepare w.2).2).
Proof.
  intros He. destruct w as [current_app md]. unfold register. rewrite He. simpl.
  by destruct (prepare md).
Qed.

(** C8. Registering two distinct classes under the same endpoint name
    raises nothing of its own (the outcome of each call is the outcome of
    [Model.prepare]), and afterwards the registry maps the name to the
    class registered second; the same holds when both are passed in one
    sequence. *)
Theorem register_last_write_wins {metadata}
    (prepare : metadata → metadata * option exception)
    (w : application * metadata) (first second : model_class) (e : string) :
  first ≠ second →
  endpoint first = Ok e →
  endpoint second = Ok e →
  let after_first := register prepare w (OneClass first) in
  let after_second := register prepare after_first.1 (OneClass second) in
  let after_both := register prepare w (Sequence [first; second]) in
  (∃ registry, endpoint_classes after_second.1.1 = Some registry ∧
     registry !! e = Some second ∧ registry !! e ≠ Some first) ∧
  after_first.2 = (prepare w.2).2 ∧
  after_second.2 = (prepare after_first.1.2).2 ∧
  (∃ registry, endpoint_classes after_both.1.1 = Some registry ∧
     registry !! e = Some second ∧ registry !! e ≠ Some first) ∧
  after_both.2 = (prepare w.2).2.
Proof.
  intros Hne Hfirst Hsecond after_first after_second after_both.
  assert (∀ registry : gmap string model_class,
            <[e := second]> registry !! e = Some second ∧
            <[e := second]> registry !! e ≠ Some first) as Hwins.
  { intros registry. rewrite lookup_insert_eq. split; [done|]. by intros [= ->]. }
  unfold after_second, after_first.
  rewrite (register_one prepare w first e Hfirst).
  rewrite (register_one prepare _ second e Hsecond). cbn [fst snd].
  split; [eexists; split; [reflexivity|apply Hwins]|].
  split; [done|]. split; [done|].
  unfold after_both, register. destruct w as [current_app md].
  cbn [register_entries]. rewrite Hfirst, Hsecond. cbn [fst snd].
  destruct (prepare md) as [md' raised]. cbn [fst snd].
  split; [|done]. eexists. split; [reflexivity|apply Hwins].
Qed.

Lemma register_person_then_personnel :
  (∃ registry,
     endpoint_classes
       (register sample_prepare
          (register sample_prepare empty_world (OneClass Person)).1
          (OneClass Personnel)).1.1 = Some registry ∧
     registry !! "persons" = Some Personnel ∧
     registry !! "persons" ≠ Some Person) ∧
  (register sample_prepare empty_world (OneClass Person)).2 = None ∧
  (register sample_prepare
     (register sample_prepare empty_world (OneClass Person)).1
     (OneClass Personnel)).2 = None.
Proof.
  destruct (register_last_write_wins sample_prepare empty_world
              Person Personnel "persons")
    as (Hreg & H1 & H2 & _); [discriminate|reflexivity|reflexivity|].
  split; [exact Hreg|]. split; [exact H1|exact H2].
Defined.

(** ** Derived endpoints *)








(** ** Errors *)

(** X2. Before reflection every method that reads the table raises
    [AttributeError], whatever the endpoint configuration is ([endpoint]
    itself does not need the table); [resource_uri] and [links] are
    reached when no attribute of the instance hides them or
    [primary_key]. *)
Theorem unreflected_class_raises (self : instance) (dictionary : gmap string value) :
  __table__ (class_of self) = None →
  finds_methods self ["resource_uri"; "primary_key"] = true →
  primary_key (class_of self) = Raise AttributeError ∧
  resource_uri self = Raise AttributeError ∧
  links self = Raise AttributeError ∧
  as_dict self = Raise AttributeError ∧
  from_dict self dictionary = Raise AttributeError ∧
  replace self dictionary = Raise AttributeError.
Proof.
  intros Ht (Hu & (Hk & _)%finds_methods_cons)%finds_methods_cons.
  assert (resource_uri self = Raise AttributeError) as Huri.
  { unfold resource_uri, primary_key.
    rewrite (call_method_found self "primary_key") by exact Hk. by rewrite Ht. }
  unfold links, as_dict, from_dict, replace, primary_key.
  rewrite (call_method_found self "resource_uri") by exact Hu. by rewrite Ht, Huri.
Qed.

Lemma unreflected_draft_row :
  endpoint (class_of draft_row) = Ok "drafts" ∧
  resource_uri draft_row = Raise AttributeError ∧
  as_dict draft_row = Raise AttributeError ∧
  from_dict draft_row {[ "id" := VInt 2 ]} = Raise AttributeError.
Proof.
  destruct (unreflected_class_raises draft_row {[ "id" := VInt 2 ]} eq_refl eq_refl)
    as (_ & Huri & _ & Has & Hfrom & _).
  split; [reflexivity|]. split; [exact Huri|]. split; [exact Has|exact Hfrom].
Defined.



Lemma as_dict_inv self result_dict :
  as_dict self = Ok result_dict →
  finds_methods self ["links"; "resource_uri"; "primary_key"; "endpoint"] = true ∧
  ∃ tbl pk e, __table__ (class_of self) = Some tbl ∧
    head (primary_key_columns tbl) = Some pk ∧ endpoint (class_of self) = Ok e.
Proof.
  unfold as_dict, links, resource_uri, primary_key, call_method, finds_methods.
  cbn [forallb].
  destruct (__table__ (class_of self)) as [tbl|] eqn:Ht; simpl; [|done].
  destruct (__dict__ self !! "links"); simpl; [done|].
  destruct (__dict__ self !! "resource_uri"); simpl; [done|].
  destruct (__dict__ self !! "primary_key"); simpl; [done|].
  destruct (head (primary_key_columns tbl)) as [pk|] eqn:Hpk; simpl; [|done].
  destruct (__dict__ self !! "endpoint"); simpl; [done|].
  destruct (endpoint (class_of self)) as [e|] eqn:He; simpl; [|done].
  intros _. split; [done|]. by exists tbl, pk, e.
Qed.




Lemma replace_inv self dictionary replaced :
  replace self dictionary = Ok replaced →
  ∃ tbl, __table__ (class_of self) = Some tbl ∧
    ("from_dict" ∉ columns tbl) ∧ __dict__ self !! "from_dict" = None.
Proof.
  unfold replace, call_method.
  destruct (__table__ (class_of self)) as [tbl|] eqn:Ht; simpl; [|done].
  rewrite clear_loop_lookup. destruct (decide _) as [|Hcol]; [done|].
  destruct (__dict__ self !! "from_dict") eqn:Hattr; [done|].
  intros _. by exists tbl.
Qed.



(** ** More on URIs *)

(** X7. With a composite primary key only the first key column enters
    the URI: two rows of the same class that agree on it have the same URI
    and the same links, whatever their other key columns hold.  The key
    column is not named like an attribute of the class, and the methods
    called on the rows are not hidden. *)
Theorem resource_uri_reads_first_key_only (a b : instance) (tbl : table)
    (pk : string) (others : list string) :
  class_of a = class_of b →
  __table__ (class_of a) = Some tbl →
  primary_key_columns tbl = pk :: others →
  pk ∉ mixin_names →
  finds_methods a ["resource_uri"; "primary_key"; "endpoint"] = true →
  finds_methods b ["resource_uri"; "primary_key"; "endpoint"] = true →
  getattr a pk = getattr b pk →
  resource_uri a = resource_uri b ∧ links a = links b.
Proof.
  intros Hcls Ht Hpk _
    (Hua & (Hka & (Hea & _)%finds_methods_cons)%finds_methods_cons)%finds_methods_cons
    (Hub & (Hkb & (Heb & _)%finds_methods_cons)%finds_methods_cons)%finds_methods_cons
    Hval.
  assert (resource_uri a = resource_uri b) as Huri.
  { unfold resource_uri, primary_key.
    rewrite (call_method_found a "primary_key"), (call_method_found b "primary_key")
      by done.
    rewrite <- Hcls, Ht. simpl. rewrite Hpk. simpl.
    rewrite (call_method_found a "endpoint"), (call_method_found b "endpoint")
      by done.
    by rewrite Hval. }
  split; [done|]. unfold links.
  rewrite (call_method_found a "resource_uri"), (call_method_found b "resource_uri")
    by done.
  by rewrite Huri.
Qed.

Lemma order_lines_share_uri :
  getattr order_1_line_1 "line" ≠ getattr order_1_line_2 "line" ∧
  resource_uri order_1_line_1 = Ok "/order_lines/1" ∧
  resource_uri order_1_line_2 = Ok "/order_lines/1".
Proof.
  assert ("order_id" ∉ mixin_names) as Hname by not_among.
  destruct (resource_uri_reads_first_key_only order_1_line_1 order_1_line_2
              order_line_table "order_id" ["line"]
              eq_refl eq_refl eq_refl Hname eq_refl eq_refl eq_refl)
    as [Huri _].
  split; [discriminate|]. split; [reflexivity|].
  rewrite <- Huri. reflexivity.
Defined.




(** ** More on marshalling *)

(** X9. In the output of [as_dict], a table column whose attribute is
    unset appears with the value [None] (the column not being named like
    an attribute of the class), and a column holding anything but a
    [Decimal] appears with that very value. *)
Theorem as_dict_column_values (self : instance) (tbl : table)
    (result_dict : gmap string value) (column : string) :
  as_dict self = Ok result_dict →
  __table__ (class_of self) = Some tbl →
  column ∈ columns tbl →
  (__dict__ self !! column = None → column ∉ mixin_names →
     result_dict !! column = Some VNone) ∧
  (∀ v, __dict__ self !! column = Some v → is_decimal v = false →
     result_dict !! column = Some v).
Proof.
  intros Has Ht Hin.
  destruct (as_dict_inv _ _ Has) as (Hfinds & tbl' & pk & e & Ht' & Hpk & He).
  assert (tbl' = tbl) as -> by congruence.
  pose proof (as_dict_lookup_column _ _ _ _ _ column Ht Hpk He Hfinds Has Hin) as Hcol.
  pose proof Hfinds as [Hlinks _]%finds_methods_cons.
  unfold marshalled, getattr in Hcol. split.
  - intros Hnone Hname. rewrite Hcol, Hnone; [done|].
    intros ->. apply Hname. unfold mixin_names. set_solver.
  - intros v Hv Hdec. rewrite Hcol, Hv; [simpl; by rewrite Hdec|].
    intros ->. congruence.
Qed.

Lemma as_dict_half_filled :
  ∃ result_dict, as_dict half_filled = Ok result_dict ∧
    result_dict !! "name" = Some VNone ∧
    result_dict !! "quantity" = Some (VInt 0).
Proof.
  eexists. split; [reflexivity|].
  assert (∀ column, bool_decide (column ∈ columns item_table) = true →
                    column ∈ columns item_table) as Hin.
  { intros column Hb. by apply bool_decide_eq_true in Hb. }
  split.
  - refine (proj1 (as_dict_column_values half_filled item_table _ "name"
                     eq_refl eq_refl (Hin "name" eq_refl)) eq_refl _).
    not_among.
  - exact (proj2 (as_dict_column_values half_filled item_table _ "quantity"
                    eq_refl eq_refl (Hin "quantity" eq_refl)) (VInt 0) eq_refl eq_refl).
Defined.

Lemma marshalled_not_decimal v d : marshalled v ≠ VDecimal d.
Proof. unfold marshalled. by destruct v. Qed.

(** X10. No entry of the dictionary [as_dict] returns is a [Decimal]. *)
Theorem as_dict_has_no_decimal (self : instance) (result_dict : gmap string value)
    (key : string) (d : Decimal.t) :
  as_dict self = Ok result_dict → result_dict !! key ≠ Some (VDecimal d).
Proof.
  intros Has.
  destruct (as_dict_inv _ _ Has) as (Hfinds & tbl & pk & e & Ht & Hpk & He).
  rewrite (as_dict_ok _ _ _ _ Ht Hpk He Hfinds) in Has. injection Has as <-.
  destruct (decide (key = "links")) as [->|Hne].
  - by rewrite lookup_insert_eq.
  - rewrite lookup_insert_ne, as_dict_loop_lookup by done.
    destruct (decide _); [|by rewrite lookup_empty].
    intros [= H]. by apply marshalled_not_decimal in H.
Qed.

Lemma as_dict_five_widgets_no_decimal :
  getattr five_widgets "price" = VDecimal (Decimal.Finite false 1250 (-2)) ∧
  ∃ result_dict, as_dict five_widgets = Ok result_dict ∧
    result_dict !! "price" ≠ Some (VDecimal (Decimal.Finite false 1250 (-2))).
Proof.
  split; [reflexivity|]. eexists. split; [reflexivity|].
  exact (as_dict_has_no_decimal five_widgets _ "price" _ eq_refl).
Defined.

(** X11. Whenever [as_dict] returns, its entry under the key [links] is
    the list that [links] returns: one [self] link with the resource
    URI. *)
Theorem as_dict_links_entry (self : instance) (result_dict : gmap string value) :
  as_dict self = Ok result_dict →
  ∃ uri, resource_uri self = Ok uri ∧
    links self = Ok (VList [VDict [("rel", VStr "self"); ("uri", VStr uri)]]) ∧
    result_dict !! "links" =
      Some (VList [VDict [("rel", VStr "self"); ("uri", VStr uri)]]).
Proof.
  intros Has.
  destruct (as_dict_inv _ _ Has) as (Hfinds & tbl & pk & e & Ht & Hpk & He).
  pose proof Hfinds as (_ & Hfinds')%finds_methods_cons.
  pose proof Hfinds' as (_ & Hfinds'')%finds_methods_cons.
  eexists. split; [by eapply resource_uri_ok|]. split; [by eapply links_ok|].
  rewrite (as_dict_ok _ _ _ _ Ht Hpk He Hfinds) in Has. injection Has as <-.
  by rewrite lookup_insert_eq.
Qed.

Lemma as_dict_person_3_links :
  ∃ result_dict, as_dict person_3 = Ok result_dict ∧
    result_dict !! "links" =
      Some (VList [VDict [("rel", VStr "self"); ("uri", VStr "/persons/3")]]).
Proof.
  eexists. split; [reflexivity|].
  destruct (as_dict_links_entry person_3 _ eq_refl) as (uri & Huri & _ & Hentry).
  injection Huri as <-. exact Hentry.
Defined.






(** ** More on updates *)









(** ** More on replace *)

(** X16. [replace] forgets what the table's columns held: on two
    instances of one class that agree on every attribute that is not a
    column, it has the same outcome. *)
Theorem replace_forgets_columns (a b : instance) (dictionary : gmap string value)
    (tbl : table) :
  class_of a = class_of b →
  __table__ (class_of a) = Some tbl →
  (∀ name, name ∉ columns tbl → __dict__ a !! name = __dict__ b !! name) →
  replace a dictionary = replace b dictionary.
Proof.
  intros Hcls Ht Hagree. unfold replace. rewrite <- Hcls, Ht. simpl.
  set (ca := foldl _ a _). set (cb := foldl _ b _).
  assert (ca = cb) as ->; [|done].
  apply instance_eq.
  - unfold ca, cb. by rewrite !clear_loop_class.
  - apply map_eq. intros name. unfold ca, cb. rewrite !clear_loop_lookup.
    destruct (decide _); [done|]. by apply Hagree.
Qed.

Lemma replace_forgets_quantity :
  replace (setattr five_widgets "quantity" (VInt 99)) {[ "name" := VStr "bolt" ]}
  = replace five_widgets {[ "name" := VStr "bolt" ]}.
Proof.
  apply (replace_forgets_columns _ _ _ item_table); [reflexivity|reflexivity|].
  intros name Hname. cbn [setattr __dict__]. apply lookup_insert_ne.
  intros <-. apply Hname. cbn. set_solver.
Defined.

(** X17. A partial update with the mapping that the instance has just
    been replaced with changes nothing. *)
Theorem from_dict_after_replace (self replaced : instance)
    (dictionary : gmap string value) :
  replace self dictionary = Ok replaced →
  from_dict replaced dictionary = Ok replaced.
Proof.
  intros Hr. destruct (replace_inv _ _ _ Hr) as (tbl & Ht & Hcol & Hattr).
  rewrite (replace_ok _ _ _ Ht Hcol Hattr) in Hr. injection Hr as <-.
  rewrite (from_dict_ok _ _ tbl)
    by by rewrite from_dict_loop_class, clear_loop_class.
  f_equal. apply instance_eq; [by rewrite from_dict_loop_class|].
  apply map_eq. intros name. rewrite from_dict_loop_lookup, replace_loop_lookup.
  destruct (truthy (dict_get dictionary name)) eqn:Htruthy; repeat case_decide;
    try done; naive_solver.
Qed.

Lemma from_dict_after_replace_five_widgets :
  ∃ replaced, replace five_widgets {[ "name" := VStr "bolt" ]} = Ok replaced ∧
    from_dict replaced {[ "name" := VStr "bolt" ]} = Ok replaced.
Proof.
  eexists. split; [reflexivity|].
  exact (from_dict_after_replace five_widgets _ {[ "name" := VStr "bolt" ]} eq_refl).
Defined.

(** X18. The updates never delete an attribute: after [from_dict] the
    instance has the attributes it had, and possibly more of the table's
    columns; after [replace] it has the attributes it had and every
    column of the table. *)
Theorem updates_keep_attributes (self : instance) (dictionary : gmap string value)
    (tbl : table) :
  __table__ (class_of self) = Some tbl →
  (∀ updated, from_dict self dictionary = Ok updated →
     dom (__dict__ self) ⊆ dom (__dict__ updated) ∧
     dom (__dict__ updated) ⊆ dom (__dict__ self) ∪ list_to_set (columns tbl)) ∧
  (∀ replaced, replace self dictionary = Ok replaced →
     dom (__dict__ replaced) = dom (__dict__ self) ∪ list_to_set (columns tbl)).
Proof.
  intros Ht. split.
  - intros updated. rewrite (from_dict_ok _ _ _ Ht). intros [= <-].
    split; intros name; rewrite ?elem_of_union, !elem_of_dom, from_dict_loop_lookup,
      ?elem_of_list_to_set; case_decide; naive_solver.
  - intros replaced Hr. destruct (replace_inv _ _ _ Hr) as (tbl' & Ht' & Hcol & Hattr).
    assert (tbl' = tbl) as -> by congruence.
    rewrite (replace_ok _ _ _ Ht Hcol Hattr) in Hr. injection Hr as <-.
    apply set_eq. intros name.
    rewrite elem_of_union, !elem_of_dom, replace_loop_lookup, elem_of_list_to_set.
    case_decide; naive_solver.
Qed.

Lemma replace_five_widgets_attributes :
  ∃ replaced, replace five_widgets ∅ = Ok replaced ∧
    dom (__dict__ replaced) = {[ "id"; "name"; "quantity"; "price"; "note" ]}.
Proof.
  eexists. split; [reflexivity|].
  rewrite (proj2 (updates_keep_attributes five_widgets ∅ item_table eq_refl) _ eq_refl).
  unfold five_widgets. cbn [__dict__ columns item_table list_to_set].
  rewrite !dom_insert_L, dom_singleton_L. set_solver.
Defined.

(** ** Updates and URIs *)






(** ** The round trip in general *)



(** ** More on registration *)

Lemma register_entries_all_ok registry entries :
  (∀ c, c ∈ entries → ∃ e, endpoint c = Ok e) →
  (register_entries registry entries).2 = None.
Proof.
  revert registry. induction entries as [|entry entries IH]; intros registry H;
    simpl; [done|].
  destruct (H entry) as [e ->]; [apply list_elem_of_here|].
  apply IH. intros c Hc. apply H. by apply list_elem_of_further.
Qed.

Lemma register_entries_other registry entries e :
  (∀ c, c ∈ entries → endpoint c ≠ Ok e) →
  (register_entries registry entries).1 !! e = registry !! e.
Proof.
  revert registry. induction entries as [|entry entries IH]; intros registry H;
    simpl; [done|].
  destruct (endpoint entry) as [e'|] eqn:He; [|done].
  rewrite IH by (intros c Hc; apply H; by apply list_elem_of_further).
  apply lookup_insert_ne. intros ->. by apply (H entry); [apply list_elem_of_here|].
Qed.

Lemma register_entries_grows registry entries e :
  is_Some (registry !! e) → is_Some ((register_entries registry entries).1 !! e).
Proof.
  revert registry. induction entries as [|entry entries IH]; intros registry H;
    simpl; [done|].
  destruct (endpoint entry) as [e'|]; [|done].
  apply IH. destruct (decide (e' = e)) as [->|Hne].
  - rewrite lookup_insert_eq. by eexists.
  - by rewrite lookup_insert_ne.
Qed.

Lemma register_entries_consistent registry entries :
  (∀ e c, registry !! e = Some c → endpoint c = Ok e) →
  ∀ e c, (register_entries registry entries).1 !! e = Some c → endpoint c = Ok e.
Proof.
  revert registry. induction entries as [|entry entries IH]; intros registry H;
    simpl; [done|].
  destruct (endpoint entry) as [e'|] eqn:He; [|done].
  apply IH. intros e c. destruct (decide (e' = e)) as [->|Hne].
  - rewrite lookup_insert_eq. by intros [= <-].
  - rewrite lookup_insert_ne by done. apply H.
Qed.

(** What [register] leaves in [endpoint_classes]. *)
Lemma register_registry {metadata} (prepare : metadata → metadata * option exception)
    (w : application * metadata) (cls : registrant) :
  endpoint_classes (register prepare w cls).1.1 =
    Some (register_entries (default ∅ (endpoint_classes w.1)) (classes_of cls)).1.
Proof.
  destruct w as [current_app md]. unfold register. cbn [fst snd].
  destruct cls as [cls|entries]; cbn [classes_of register_entries].
  - destruct (endpoint cls); cbn; [by destruct (prepare md)|done].
  - destruct (register_entries _ entries) as [registry [x|]]; cbn;
      [done|by destruct (prepare md)].
Qed.

(** X22. [register] never removes an endpoint: whatever it is given, and
    whether it raises or not, [endpoint_classes] is a mapping afterwards,
    every endpoint registered before is still registered, and an endpoint
    that none of the given classes has keeps its entry. *)
Theorem register_keeps_other_entries {metadata}
    (prepare : metadata → metadata * option exception)
    (w : application * metadata) (cls : registrant) :
  ∃ registry, endpoint_classes (register prepare w cls).1.1 = Some registry ∧
    (∀ e, is_Some (default ∅ (endpoint_classes w.1) !! e) → is_Some (registry !! e)) ∧
    (∀ e, (∀ c, c ∈ classes_of cls → endpoint c ≠ Ok e) →
       registry !! e = default ∅ (endpoint_classes w.1) !! e).
Proof.
  eexists. split; [apply register_registry|]. split.
  - intros e. apply register_entries_grows.
  - intros e. apply register_entries_other.
Qed.

Lemma register_people_keeps_persons :
  ∃ registry,
    endpoint_classes
      (register sample_prepare
         (register sample_prepare empty_world (OneClass Person)).1
         (Sequence [People; Nameless])).1.1 = Some registry ∧
    registry !! "persons" = Some Person.
Proof.
  destruct (register_keeps_other_entries sample_prepare
              (register sample_prepare empty_world (OneClass Person)).1
              (Sequence [People; Nameless])) as (registry & Hreg & _ & Hother).
  exists registry. split; [exact Hreg|].
  rewrite (Hother "persons"); [reflexivity|].
  intros c Hc. cbn in Hc.
  repeat (apply elem_of_cons in Hc as [->|Hc]; [discriminate|]).
  by apply elem_of_nil in Hc.
Defined.

(** X23. [register] keeps the registry consistent: if every class in it
    sits under the name its own [endpoint()] returns, the same holds
    afterwards, whatever is registered and whether the call raises or
    not. *)
Theorem register_keeps_registry_consistent {metadata}
    (prepare : metadata → metadata * option exception)
    (w : application * metadata) (cls : registrant) :
  (∀ e c, default ∅ (endpoint_classes w.1) !! e = Some c → endpoint c = Ok e) →
  ∃ registry, endpoint_classes (register prepare w cls).1.1 = Some registry ∧
    ∀ e c, registry !! e = Some c → endpoint c = Ok e.
Proof.
  intros H. eexists. split; [apply register_registry|].
  by apply register_entries_consistent.
Qed.

Lemma register_from_empty_consistent :
  ∃ registry,
    endpoint_classes
      (register sample_prepare empty_world (Sequence [Person; People; Personnel])).1.1
      = Some registry ∧
    ∀ e c, registry !! e = Some c → endpoint c = Ok e.
Proof.
  apply (register_keeps_registry_consistent sample_prepare empty_world).
  intros e c. cbn. by rewrite lookup_empty.
Defined.

(** X24. In a sequence, the last class with a given endpoint is the one
    registered under it, however many classes with that endpoint come
    before; the call raises what [Model.prepare] raises. *)
Theorem register_sequence_last_occurrence_wins {metadata}
    (prepare : metadata → metadata * option exception)
    (w : application * metadata) (before after : list model_class)
    (cls : model_class) (e : string) :
  (∀ c, c ∈ before ++ cls :: after → ∃ e', endpoint c = Ok e') →
  endpoint cls = Ok e →
  (∀ c, c ∈ after → endpoint c ≠ Ok e) →
  let outcome := register prepare w (Sequence (before ++ cls :: after)) in
  (∃ registry, endpoint_classes outcome.1.1 = Some registry ∧
     registry !! e = Some cls) ∧
  outcome.2 = (prepare w.2).2.
Proof.
  intros Hall He Hafter outcome. split.
  - eexists. split; [apply register_registry|]. cbn [classes_of].
    rewrite register_entries_app.
    destruct (register_entries _ before) as [registry raised] eqn:Hbefore.
    assert (raised = None) as ->.
    { change raised with (registry, raised).2. rewrite <- Hbefore.
      apply register_entries_all_ok. intros c Hc. apply Hall. set_solver. }
    cbn [register_entries]. rewrite He.
    rewrite register_entries_other by done. by rewrite lookup_insert_eq.
  - unfold outcome, register. destruct w as [current_app md]. cbn [fst snd].
    pose proof (register_entries_all_ok (default ∅ (endpoint_classes current_app))
                  _ Hall) as Hok.
    destruct (register_entries _ _) as [registry raised]. cbn in Hok. subst raised.
    by destruct (prepare md).
Qed.

Lemma register_three_for_persons :
  ∃ registry,
    endpoint_classes
      (register sample_prepare empty_world
         (Sequence [Person; Staff; Personnel; People])).1.1 = Some registry ∧
    registry !! "persons" = Some Personnel.
Proof.
  destruct (register_sequence_last_occurrence_wins sample_prepare empty_world
              [Person; Staff] [People] Personnel "persons") as [Hreg _].
  - intros c Hc. cbn in Hc.
    repeat (apply elem_of_cons in Hc as [->|Hc]; [by eexists|]).
    by apply elem_of_nil in Hc.
  - reflexivity.
  - intros c Hc. cbn in Hc.
    repeat (apply elem_of_cons in Hc as [->|Hc]; [discriminate|]).
    by apply elem_of_nil in Hc.
  - exact Hreg.
Defined.

(** X25. A sequence whose entry cannot name its endpoint is registered
    up to that entry: the classes before it are in the registry as if they
    alone had been given, the classes after it are not looked at,
    [Model.prepare] is not run, and the call raises what [endpoint()]
    raised. *)
Theorem register_stops_at_first_failure {metadata}
    (prepare : metadata → metadata * option exception)
    (w : application * metadata) (good rest : list model_class)
    (bad : model_class) (x : exception) :
  (∀ c, c ∈ good → ∃ e, endpoint c = Ok e) →
  endpoint bad = Raise x →
  register prepare w (Sequence (good ++ bad :: rest)) =
    (((register prepare w (Sequence good)).1.1, w.2), Some x).
Proof.
  intros Hgood Hbad. destruct w as [current_app md]. unfold register. cbn [fst snd].
  rewrite register_entries_app.
  pose proof (register_entries_all_ok (default ∅ (endpoint_classes current_app))
                _ Hgood) as Hok.
  destruct (register_entries _ good) as [registry raised]. cbn in Hok. subst raised.
  cbn [register_entries]. rewrite Hbad. by destruct (prepare md).
Qed.

Lemma register_stops_at_nameless :
  register sample_prepare empty_world (Sequence [Person; Nameless; People]) =
    (({| endpoint_classes := Some {[ "persons" := Person ]} |}, []),
     Some AttributeError).
Proof.
  refine (eq_trans (register_stops_at_first_failure sample_prepare empty_world
                      [Person] [People] Nameless AttributeError _ eq_refl) eq_refl).
  intros c Hc.
  repeat (apply elem_of_cons in Hc as [->|Hc]; [by eexists|]).
  by apply elem_of_nil in Hc.
Defined.

(** X26. Registering a sequence leaves the registry that registering its
    classes one call at a time leaves, when every class can name its
    endpoint; the one call runs [Model.prepare] once. *)
Theorem register_sequence_as_single_calls {metadata}
    (prepare : metadata → metadata * option exception)
    (w : application * metadata) (entries : list model_class) :
  (∀ c, c ∈ entries → ∃ e, endpoint c = Ok e) →
  default ∅ (endpoint_classes (register prepare w (Sequence entries)).1.1) =
  default ∅ (endpoint_classes
               (foldl (λ w c, (register prepare w (OneClass c)).1) w entries).1) ∧
  (register prepare w (Sequence entries)).1.2 = (prepare w.2).1.
Proof.
  intros Hall. split.
  - rewrite register_registry. cbn [classes_of default].
    revert w Hall. induction entries as [|entry entries IH]; intros w Hall;
      cbn [foldl register_entries]; [done|].
    destruct (Hall entry) as [e He]; [apply list_elem_of_here|].
    rewrite He. rewrite <- IH by (intros c Hc; apply Hall; by apply list_elem_of_further).
    by rewrite (register_one prepare w entry e He).
  - destruct w as [current_app md]. unfold register. cbn [fst snd].
    pose proof (register_entries_all_ok (default ∅ (endpoint_classes current_app))
                  _ Hall) as Hok.
    destruct (register_entries _ _) as [registry raised]. cbn in Hok. subst raised.
    by destruct (prepare md).
Qed.

Lemma register_sequence_person_people :
  default ∅ (endpoint_classes
               (register sample_prepare empty_world (Sequence [Person; People])).1.1) =
  default ∅ (endpoint_classes
               (register sample_prepare
                  (register sample_prepare empty_world (OneClass Person)).1
                  (OneClass People)).1.1).
Proof.
  refine (proj1 (register_sequence_as_single_calls sample_prepare empty_world
                   [Person; People] _)).
  intros c Hc.
  repeat (apply elem_of_cons in Hc as [->|Hc]; [by eexists|]).
  by apply elem_of_nil in Hc.
Defined.
